(** * gov_props: the Angular views and the enrichment step, embedded in Rocq

    The development follows the TypeScript sources:
    - [profile-page.ts] (class [ProfilePage]): the Firestore lookup by name,
      the reshaping of the [Propositions] map into [propsList], the modal
      toggles, [getStatusClass] and [toPage];
    - the home page component (class [Homepage]): [_filter], the [topMatch]
      bookkeeping of [ngOnInit] and [goToPage];
    - the sentiment scraper, of which the repository documents the behaviour
      (its README) and whose step is modelled from that description.

    JavaScript values are a tagged union, objects are association lists in
    own-property order, observables are the functions they apply to each
    emission, and component fields are records threaded through the methods. *)

From Stdlib Require Import ZArith QArith Lqa String Ascii List Sorted Permutation Lia.
From stdpp Require Import base option list strings pretty gmap.

Set Warnings "-register-all".

Local Open Scope string_scope.
Local Open Scope list_scope.

(** ** JavaScript numbers and values *)

(** A JavaScript number: [NaN], the two infinities, or a finite value.  Every
    finite double is a rational, so finite values are carried by [Q]. *)
Inductive JsNumber : Type :=
| NaN
| NegInf
| PosInf
| Fin (q : Q).

(** [a - b].  On finite operands the exact difference is kept: the double
    that JavaScript computes is this value rounded, which has the same sign,
    and the sort below only looks at the sign. *)
Definition jsSub (a b : JsNumber) : JsNumber :=
  match a, b with
  | NaN, _ | _, NaN => NaN
  | PosInf, PosInf | NegInf, NegInf => NaN
  | PosInf, _ => PosInf
  | NegInf, _ => NegInf
  | Fin _, PosInf => NegInf
  | Fin _, NegInf => PosInf
  | Fin x, Fin y => Fin (x - y)
  end.

(** The order of non-[NaN] numbers; [NaN] is related to nothing. *)
Definition jsLeb (a b : JsNumber) : bool :=
  match a, b with
  | NaN, _ | _, NaN => false
  | NegInf, _ => true
  | _, PosInf => true
  | PosInf, _ => false
  | _, NegInf => false
  | Fin x, Fin y => Qle_bool x y
  end.

Definition isNaN (a : JsNumber) : bool :=
  match a with NaN => true | _ => false end.

Inductive JsValue : Type :=
| JUndefined
| JNull
| JBool (b : bool)
| JNum (n : JsNumber)
| JStr (s : string)
| JArr (items : list JsValue)
| JObj (props : list (string * JsValue)).

(** An object as its own enumerable string-keyed properties, in the order
    [Object.entries] lists them. *)
Abbreviation Obj := (list (string * JsValue)).

(** [ToBoolean]: what [!v] and [v || w] test. *)
Definition truthy (v : JsValue) : bool :=
  match v with
  | JUndefined | JNull => false
  | JBool b => b
  | JNum NaN => false
  | JNum (Fin q) => negb (Qeq_bool q 0)
  | JNum _ => true
  | JStr s => negb (String.eqb s "")
  | JArr _ | JObj _ => true
  end.

(** [a || b]. *)
Definition jsOr (a b : JsValue) : JsValue := if truthy a then a else b.

(** [o[k]]: the property's value, [undefined] when [o] has no such property. *)
Fixpoint obj_get (o : Obj) (k : string) : JsValue :=
  match o with
  | [] => JUndefined
  | (k', v) :: o' => if String.eqb k' k then v else obj_get o' k
  end.

(** [o[k] = v] on a copy: an existing property keeps its place, a new one
    (with a name that is not an integer index) goes last. *)
Fixpoint obj_set (o : Obj) (k : string) (v : JsValue) : Obj :=
  match o with
  | [] => [(k, v)]
  | (k', v') :: o' =>
      if String.eqb k' k then (k', v) :: o' else (k', v') :: obj_set o' k v
  end.

(** ** Completions: a value, or a thrown [TypeError] *)

Inductive Completion (A : Type) : Type :=
| Normal (a : A)
| Throw (msg : string).
Arguments Normal {A} a.
Arguments Throw {A} msg.

Definition cbind {A B} (c : Completion A) (k : A -> Completion B) : Completion B :=
  match c with
  | Normal a => k a
  | Throw m => Throw m
  end.

#[global] Instance Completion_ret : MRet Completion := @Normal.
#[global] Instance Completion_bind : MBind Completion := fun A B k c => cbind c k.

(** ** Library functions of the language that the components call *)

(** [Object.entries(v)]: throws on [undefined] and [null]; a string and an
    array list their indexed elements; other primitives have no own
    properties. *)
Fixpoint indexed {A} (i : nat) (l : list A) : list (string * A) :=
  match l with
  | [] => []
  | x :: l' => (pretty i, x) :: indexed (S i) l'
  end.

Definition chars (s : string) : list JsValue :=
  map (fun c => JStr (String c EmptyString)) (list_ascii_of_string s).

Definition Object_entries (v : JsValue) : Completion Obj :=
  match v with
  | JUndefined | JNull =>
      Throw "TypeError: Cannot convert undefined or null to object"
  | JBool _ | JNum _ => Normal []
  | JStr s => Normal (indexed 0 (chars s))
  | JArr items => Normal (indexed 0 items)
  | JObj props => Normal props
  end.

(** [s.includes(sub)]: [sub] occurs in [s] as a contiguous substring. *)
Fixpoint includes (s sub : string) : bool :=
  String.prefix sub s ||
  match s with
  | EmptyString => false
  | String _ s' => includes s' sub
  end.

(** [sub] occurs in [s]. *)
Definition Substring (sub s : string) : Prop :=
  exists pre post, s = String.append pre (String.append sub post).

(** Case mapping, numeric conversion and trimming depend on the Unicode tables
    and the numeric grammar of the engine; the components only call them, so
    they are an interface of the development. *)
Class JsRuntime : Type := {
  toLowerCase : string -> string;
  trim : string -> string;
  Number : string -> JsNumber
}.

(** [Array.prototype.sort(comparefn)].  [SortCompare] reads the comparator's
    number by its sign, a [NaN] counting as zero.  The language fixes the
    result for a comparator that is a consistent ordering: the stable sorted
    arrangement; insertion from the right computes it.  For a comparator
    that is not consistent (here: some key converts to [NaN]) the order is
    the engine's own, and [Array_sort] only stands for the elements, not for
    their order. *)
Definition SortCompare {A} (comparefn : A -> A -> JsNumber) (x y : A) : comparison :=
  match comparefn x y with
  | NaN => Eq
  | NegInf => Lt
  | PosInf => Gt
  | Fin q => (q ?= 0)%Q
  end.

Fixpoint sort_insert {A} (comparefn : A -> A -> JsNumber) (x : A) (l : list A) : list A :=
  match l with
  | [] => [x]
  | y :: l' =>
      match SortCompare comparefn x y with
      | Gt => y :: sort_insert comparefn x l'
      | _ => x :: y :: l'
      end
  end.

Definition Array_sort {A} (comparefn : A -> A -> JsNumber) (l : list A) : list A :=
  foldr (sort_insert comparefn) [] l.

(** ** The document store *)

(** A collection is the list of its documents' data, in the order a query
    returns them. *)
Abbreviation Collection := (list Obj).

Definition isStr (s : string) (v : JsValue) : bool :=
  match v with
  | JStr t => String.eqb t s
  | _ => false
  end.

(** [query(col, where(field, '==', value))] for a string [value], then
    [getDocs]: the snapshot's [docs]. *)
Definition where_eq (field value : string) (col : Collection) : list Obj :=
  List.filter (fun d => isStr value (obj_get d field)) col.

(** ** Profile page *)

Module ProfilePage.

(** The fields of the component that its methods read and write, with the
    one style property of the page they touch. *)
Record State : Type := {
  validNames : list JsValue;
  selectedProp : JsValue;
  bodyOverflow : string
}.

(** What a method asks of the router and of the console. *)
Inductive Effect : Type :=
| Navigate (commands : list string)
| Warn (msg : string).

Definition initial : State :=
  {| validNames := []; selectedProp := JNull; bodyOverflow := "" |}.

(** [snapshot => snapshot.empty ? null : snapshot.docs[0].data()];
    [None] is [null]. *)
Definition firstData (docs : list Obj) : option Obj :=
  match docs with
  | [] => None
  | d :: _ => Some d
  end.

Section WithRuntime.
Context `{JsRuntime}.

(** [([a], [b]) => Number(a) - Number(b)] *)
Definition byKey (e1 e2 : string * JsValue) : JsNumber :=
  jsSub (Number e1.1) (Number e2.1).

(** The second [map] of the [politician$] pipe. *)
Definition reshape (data : option Obj) : Completion JsValue :=
  match data with
  | None => Normal JNull
  | Some d =>
      let propsMap := jsOr (obj_get d "Propositions") (JObj []) in
      entries ← Object_entries propsMap;
      let propsList := map snd (Array_sort byKey entries) in
      Normal (JObj (obj_set d "propsList" (JArr propsList)))
  end.

(** What [politician$] emits for a value [name] of the route parameter,
    against the collection [Politicians]. *)
Definition politician (col : Collection) (name : string) : Completion JsValue :=
  reshape (firstData (where_eq "Name" name col)).

(** [status?.toLowerCase() || '']; [None] is a [null] or [undefined]
    status. *)
Definition lowered (status : option string) : string :=
  match status with
  | None => ""
  | Some t => if String.eqb (toLowerCase t) "" then "" else toLowerCase t
  end.

Definition getStatusClass (status : option string) : string :=
  let s := lowered status in
  if includes s "success" then "status-success"
  else if includes s "compromised" then "status-compromised"
  else if includes s "failed" then "status-failed"
  else "status-default".

End WithRuntime.

Definition openModal (prop : JsValue) (st : State) : State :=
  {| validNames := validNames st;
     selectedProp := prop;
     bodyOverflow := "hidden" |}.

Definition closeModal (st : State) : State :=
  {| validNames := validNames st;
     selectedProp := JNull;
     bodyOverflow := "auto" |}.

(** [snapshot.docs.map(doc => doc.data()['Name'])], which the [tap] stores. *)
Definition names (col : Collection) : list JsValue :=
  map (fun d => obj_get d "Name") col.

Definition loadNames (col : Collection) (st : State) : State :=
  {| validNames := names col;
     selectedProp := selectedProp st;
     bodyOverflow := bodyOverflow st |}.

(** [validNames.includes(person)] for a string [person]. *)
Definition knows (st : State) (person : string) : bool :=
  existsb (isStr person) (validNames st).

Definition toPage (person : string) (st : State) : State * list Effect :=
  if negb (knows st person)
  then (st, [Warn "Person not found in list"])
  else (st, [Navigate ["/profile"; person]]).

Definition goBack (st : State) : State * list Effect :=
  (st, [Navigate ["/"]]).

(** [percentage <= 33], [percentage <= 66]: a comparison with [NaN] is
    false. *)
Definition getSentimentColor (percentage : JsNumber) : string :=
  if jsLeb percentage (Fin 33) then "#ef5350"
  else if jsLeb percentage (Fin 66) then "#ffa726"
  else "#66bb6a".

End ProfilePage.

(** ** Home page *)

(** [value || ''] on [string | null]. *)
Definition orEmpty (value : option string) : string :=
  match value with
  | Some s => if String.eqb s "" then "" else s
  | None => ""
  end.

(** [a || b] on [string | null]: the empty string is falsy too. *)
Definition orElse (a b : option string) : option string :=
  match a with
  | Some s => if String.eqb s "" then b else Some s
  | None => b
  end.

(** The first revision of the component: no guard in the filter. *)
Module HomepageInitial.
Section WithRuntime.
Context `{JsRuntime}.

Definition _filter (options : list string) (value : string) : list string :=
  let filterValue := toLowerCase value in
  List.filter (fun option => includes (toLowerCase option) filterValue) options.

End WithRuntime.
End HomepageInitial.

Module Homepage.

(** [control] is the value of [myControl]. *)
Record State : Type := {
  topMatch : option string;
  options : list string;
  control : option string
}.

Inductive Effect : Type :=
| Navigate (commands : list string).

Definition initial : State :=
  {| topMatch := None; options := []; control := Some "" |}.

Section WithRuntime.
Context `{JsRuntime}.

(** [option && option.toLowerCase().includes(filterValue)] *)
Definition _filter (options : list string) (value : string) : list string :=
  let filterValue := toLowerCase value in
  List.filter
    (fun option =>
       negb (String.eqb option "") && includes (toLowerCase option) filterValue)
    options.

(** The [map] of [ngOnInit], run on each value the control emits: the new
    state and the list handed to the autocomplete. *)
Definition onValue (value : option string) (st : State) : State * list string :=
  let filtered := _filter (options st) (orEmpty value) in
  ({| topMatch := match filtered with [] => None | m :: _ => Some m end;
      options := options st;
      control := control st |},
   filtered).

(** [myControl.setValue(value)]: the control takes the value and emits it. *)
Definition setValue (value : option string) (st : State) : State :=
  (onValue value
     {| topMatch := topMatch st; options := options st; control := value |}).1.

(** The subscriber of the constructor:
    [this.options.set(names); this.myControl.setValue(this.myControl.value)]. *)
Definition onNames (names : list string) (st : State) : State :=
  setValue (control st)
    {| topMatch := topMatch st; options := names; control := control st |}.

Definition goToPage (inputValue : option string) (st : State) : list Effect :=
  match orElse (topMatch st) inputValue with
  | Some destinationName =>
      if negb (String.eqb destinationName "")
         && negb (String.eqb (trim destinationName) "")
      then [Navigate ["/profile"; destinationName]]
      else []
  | None => []
  end.

(** What happens to the component between two clicks: the user edits the
    control, or the store delivers the list of names. *)
Inductive Event : Type :=
| Typed (value : option string)
| Loaded (names : list string).

Definition step (e : Event) (st : State) : State :=
  match e with
  | Typed value => setValue value st
  | Loaded names => onNames names st
  end.

Definition run (events : list Event) (st : State) : State :=
  fold_left (fun s e => step e s) events st.

(** The state between two events: [topMatch] is the first option the filter
    returns for the value the control holds, [null] when it returns none. *)
Definition in_step (st : State) : Prop :=
  topMatch st = hd_error (_filter (options st) (orEmpty (control st))).

End WithRuntime.
End Homepage.

(** ** Routes *)

Module Router.

Inductive Component : Type :=
| HomepageComponent
| ProfilePageComponent.

Record Route : Type := {
  path : string;
  component : Component
}.

(** [app.routes.ts] *)
Definition routes : list Route :=
  [ {| path := ""; component := HomepageComponent |};
    {| path := "profile/:name"; component := ProfilePageComponent |} ].

(** [s.split('/')] *)
Fixpoint split_slash (s : string) : list string :=
  match s with
  | EmptyString => [EmptyString]
  | String c s' =>
      if Ascii.eqb c "/" then EmptyString :: split_slash s'
      else match split_slash s' with
           | [] => [String c EmptyString]
           | w :: ws => String c w :: ws
           end
  end.

(** The segments of the URL that [router.navigate(commands)] asks for, for
    an absolute list of string commands: the first command is cut at its
    slashes, every later command is one segment.  [None] for what the
    components never pass (a relative first command, or one with [..]). *)
Definition segments_of (commands : list string) : option (list string) :=
  match commands with
  | [] => None
  | first :: rest =>
      match split_slash first with
      | EmptyString :: parts =>
          if existsb (String.eqb "..") parts then None
          else Some (List.filter (fun p => negb (String.eqb p "")) parts ++ rest)
      | _ => None
      end
  end.

(** The router's default matcher on a route without children: every part of
    the path takes one segment, a part that starts with a colon binds a
    parameter, and no segment may be left over. *)
Fixpoint match_parts (parts segments : list string) : option (list (string * string)) :=
  match parts, segments with
  | [], [] => Some []
  | p :: parts', s :: segments' =>
      match p with
      | String ":" name =>
          option_map (cons (name, s)) (match_parts parts' segments')
      | _ => if String.eqb p s then match_parts parts' segments' else None
      end
  | _, _ => None
  end.

Definition match_route (r : Route) (segments : list string) : option (list (string * string)) :=
  if String.eqb (path r) ""
  then match segments with [] => Some [] | _ => None end
  else match_parts (split_slash (path r)) segments.

(** The first route of the table that matches, with its parameters. *)
Fixpoint recognize (table : list Route) (segments : list string)
  : option (Component * list (string * string)) :=
  match table with
  | [] => None
  | r :: table' =>
      match match_route r segments with
      | Some params => Some (component r, params)
      | None => recognize table' segments
      end
  end.

Definition resolve (commands : list string) : option (Component * list (string * string)) :=
  match segments_of commands with
  | Some segments => recognize routes segments
  | None => None
  end.

End Router.

(** ** The environment file generator *)

Module SetEnv.

(** [${process.env.X}] in the template: an unset variable is [undefined],
    which the template writes as the word. *)
Definition interpolate (v : option string) : string :=
  match v with
  | Some s => s
  | None => "undefined"
  end.

Definition envConfigFile (env : gmap string string) : string :=
  String.concat ""
    [ "export const environment = {
  production: false,
  firebase: {
    apiKey: '"; interpolate (env !! "NG_APP_FIREBASE_DEV_API_KEY"); "',
    authDomain: '"; interpolate (env !! "NG_APP_FIREBASE_AUTH_DOMAIN"); "',
    projectId: '"; interpolate (env !! "NG_APP_FIREBASE_PROJECT_ID"); "',
    storageBucket: '"; interpolate (env !! "NG_APP_FIREBASE_STORAGE_BUCKET"); "',
    messagingSenderId: '"; interpolate (env !! "NG_APP_FIREBASE_MESSAGING_SENDER_ID"); "',
    appId: '"; interpolate (env !! "NG_APP_FIREBASE_APP_ID"); "',
    measurementId: '"; interpolate (env !! "NG_APP_FIREBASE_MEASUREMENT_ID"); "'
  }
};" ].

(** The variables the template reads. *)
Definition variables : list string :=
  [ "NG_APP_FIREBASE_DEV_API_KEY"; "NG_APP_FIREBASE_AUTH_DOMAIN";
    "NG_APP_FIREBASE_PROJECT_ID"; "NG_APP_FIREBASE_STORAGE_BUCKET";
    "NG_APP_FIREBASE_MESSAGING_SENDER_ID"; "NG_APP_FIREBASE_APP_ID";
    "NG_APP_FIREBASE_MEASUREMENT_ID" ].

End SetEnv.

(** ** Enrichment script *)

Module Scraper.

(** A proposition as the script reads it from the store: field name to
    text. *)
Abbreviation Proposition := (gmap string string).

Definition sentence_key : string := "sentiment_sentence_summary".
Definition paragraph_key : string := "sentiment_paragraph_summary".

(** What the search services and the generative endpoint give for a
    proposition during one run: the sentence and the paragraph, or [None]
    when a call fails (the error is logged and the proposition skipped). *)
Definition Oracle : Type := gmap string string -> option (string * string).

(** Modelled from the spec: the scraper script itself is not among the
    sources.  A proposition "already has sentiment data" as soon as one of
    the two summary fields is present. *)
Definition has_summaries (p : Proposition) : bool :=
  bool_decide (is_Some (p !! sentence_key) \/ is_Some (p !! paragraph_key)).

(** Modelled from the spec: the scraper script itself is not among the
    sources.  A proposition that has sentiment data is skipped; for any
    other the two generated fields are written back, unless a call failed,
    in which case nothing is written. *)
Definition enrich (o : Oracle) (p : Proposition) : Proposition :=
  if has_summaries p then p
  else
    match o p with
    | Some (sentence, paragraph) =>
        <[paragraph_key := paragraph]> (<[sentence_key := sentence]> p)
    | None => p
    end.

(** Modelled from the spec: the scraper script itself is not among the
    sources.  One run visits every proposition of every politician. *)
Definition run (o : Oracle) (db : gmap string (gmap string (gmap string string)))
  : gmap string (gmap string (gmap string string)) :=
  (fun props : gmap string (gmap string string) => enrich o <$> props) <$> db.

End Scraper.

(** ** A runtime for ASCII text and integer keys

    Used to evaluate the components on concrete inputs.  On ASCII strings
    [toLowerCase] and [trim] are the engine's; [Number] is the engine's
    conversion restricted to optionally signed decimal integer literals and
    [Infinity] (strings with a fraction, an exponent or a radix prefix are
    outside this instance). *)
Module AsciiRuntime.

Definition lower_char (c : ascii) : ascii :=
  let n := N_of_ascii c in
  if ((65 <=? n) && (n <=? 90))%N then ascii_of_N (n + 32) else c.

Fixpoint lower (s : string) : string :=
  match s with
  | EmptyString => EmptyString
  | String c s' => String (lower_char c) (lower s')
  end.

(** Tab, line feed, vertical tab, form feed, carriage return, space. *)
Definition is_space (c : ascii) : bool :=
  let n := N_of_ascii c in
  ((9 <=? n) && (n <=? 13) || (n =? 32))%N.

Fixpoint trim_start (s : string) : string :=
  match s with
  | EmptyString => EmptyString
  | String c s' => if is_space c then trim_start s' else s
  end.

Fixpoint trim_end (s : string) : string :=
  match s with
  | EmptyString => EmptyString
  | String c s' =>
      match trim_end s' with
      | EmptyString => if is_space c then EmptyString else String c EmptyString
      | t => String c t
      end
  end.

Definition trim_both (s : string) : string := trim_end (trim_start s).

Definition digit (c : ascii) : option Z :=
  let n := N_of_ascii c in
  if ((48 <=? n) && (n <=? 57))%N then Some (Z.of_N n - 48)%Z else None.

Fixpoint digits_value (acc : Z) (s : string) : option Z :=
  match s with
  | EmptyString => Some acc
  | String c s' =>
      match digit c with
      | Some d => digits_value (10 * acc + d)%Z s'
      | None => None
      end
  end.

(** A non-empty string of decimal digits. *)
Fixpoint all_digits (s : string) : bool :=
  match s with
  | EmptyString => true
  | String c s' =>
      match digit c with Some _ => all_digits s' | None => false end
  end.

Definition digit_key (s : string) : bool :=
  negb (String.eqb s "") && all_digits s.

(** The double nearest to a natural number [z] (ties to even), or
    [Infinity] past the largest double. *)
Definition nearest_double (z : Z) : JsNumber :=
  if (z <? 2 ^ 53)%Z then Fin (inject_Z z)
  else
    let e := (Z.log2 z - 52)%Z in
    let q := Z.shiftr z e in
    let r := (z - Z.shiftl q e)%Z in
    let half := Z.shiftl 1 (e - 1) in
    let q' :=
      if (r <? half)%Z then q
      else if (half <? r)%Z then (q + 1)%Z
      else if Z.even q then q else (q + 1)%Z in
    let m := Z.shiftl q' e in
    if (2 ^ 1024 <=? m)%Z then PosInf else Fin (inject_Z m).

Definition unsigned (s : string) : JsNumber :=
  if String.eqb s "Infinity" then PosInf
  else
    match s with
    | EmptyString => NaN
    | _ => match digits_value 0 s with
           | Some z => nearest_double z
           | None => NaN
           end
    end.

Definition negate (n : JsNumber) : JsNumber :=
  match n with
  | NaN => NaN
  | NegInf => PosInf
  | PosInf => NegInf
  | Fin q => Fin (- q)
  end.

Definition to_number (s : string) : JsNumber :=
  match trim_both s with
  | EmptyString => Fin 0
  | String "+" r => unsigned r
  | String "-" r => negate (unsigned r)
  | t => unsigned t
  end.

#[global] Instance runtime : JsRuntime :=
  {| toLowerCase := lower; trim := trim_both; Number := to_number |}.

End AsciiRuntime.

(** ** Facts about the library functions *)

Lemma append_cons (c : ascii) (p q : string) :
  String.append (String c p) q = String c (String.append p q).
Proof. reflexivity. Qed.

Lemma append_nil (q : string) : String.append EmptyString q = q.
Proof. reflexivity. Qed.

Lemma prefix_spec (p s : string) :
  String.prefix p s = true <-> exists post, s = String.append p post.
Proof.
  revert s; induction p as [|c p IH]; intros s; simpl.
  - split; [intros _; now exists s | intros _; now destruct s].
  - destruct s as [|c' s]; simpl.
    + split; [discriminate | intros [post Hp]; discriminate].
    + destruct (Ascii.ascii_dec c c') as [->|Hne].
      * rewrite IH. split; intros [post Hp]; exists post;
          rewrite append_cons in *; congruence.
      * split; [discriminate |].
        intros [post Hp]. rewrite append_cons in Hp. congruence.
Qed.

(** [includes] decides the substring relation. *)
Lemma includes_spec (s sub : string) :
  includes s sub = true <->
  exists pre post, s = String.append pre (String.append sub post).
Proof.
  induction s as [|c s IH].
  - change (includes "" sub) with (String.prefix sub "" || false).
    rewrite orb_false_r, prefix_spec. split.
    + intros [post Hp]. now exists EmptyString, post.
    + intros [pre [post Hp]]. destruct pre.
      * rewrite append_nil in Hp. now exists post.
      * rewrite append_cons in Hp. discriminate.
  - change (includes (String c s) sub)
      with (String.prefix sub (String c s) || includes s sub).
    rewrite orb_true_iff, prefix_spec, IH. split.
    + intros [[post Hp] | [pre [post Hp]]].
      * now exists EmptyString, post.
      * exists (String c pre), post. rewrite append_cons. now rewrite Hp.
    + intros [pre [post Hp]]. destruct pre as [|c' pre].
      * left. rewrite append_nil in Hp. now exists post.
      * right. rewrite append_cons in Hp. exists pre, post. congruence.
Qed.

Lemma includes_empty (s : string) : includes s "" = true.
Proof. destruct s; reflexivity. Qed.

Lemma obj_get_set_eq (o : Obj) (k : string) (v : JsValue) :
  obj_get (obj_set o k v) k = v.
Proof.
  induction o as [|[k' v'] o IH]; simpl.
  - now rewrite String.eqb_refl.
  - destruct (String.eqb k' k) eqn:E; simpl; now rewrite E.
Qed.

Lemma obj_get_set_ne (o : Obj) (k k' : string) (v : JsValue) :
  k <> k' -> obj_get (obj_set o k v) k' = obj_get o k'.
Proof.
  intros Hne. induction o as [|[k0 v0] o IH]; simpl.
  - destruct (String.eqb_spec k k'); [contradiction | reflexivity].
  - destruct (String.eqb_spec k0 k) as [->|Hk]; simpl.
    + destruct (String.eqb_spec k k'); [contradiction | reflexivity].
    + now rewrite IH.
Qed.

(** ** Sorting by a numeric key *)

Lemma jsLeb_trans (a b c : JsNumber) :
  jsLeb a b = true -> jsLeb b c = true -> jsLeb a c = true.
Proof.
  destruct a, b, c; simpl; try congruence.
  rewrite !Qle_bool_iff. apply Qle_trans.
Qed.

Lemma jsLeb_refl (a : JsNumber) : a <> NaN -> jsLeb a a = true.
Proof.
  destruct a; simpl; try congruence.
  intros _. apply Qle_bool_iff, Qle_refl.
Qed.

Section SortByKey.
Context {A : Type} (num : A -> JsNumber).

Let comparefn (x y : A) : JsNumber := jsSub (num x) (num y).
Let le_key (x y : A) : Prop := jsLeb (num x) (num y) = true.

Lemma SortCompare_Gt (x y : A) :
  SortCompare comparefn x y = Gt -> le_key y x.
Proof.
  unfold SortCompare, comparefn, le_key.
  destruct (num x) as [| | |p], (num y) as [| | |q]; simpl; try congruence.
  rewrite <- Qgt_alt, Qle_bool_iff. lra.
Qed.

Lemma SortCompare_not_Gt (x y : A) :
  num x <> NaN -> num y <> NaN ->
  SortCompare comparefn x y <> Gt -> le_key x y.
Proof.
  unfold SortCompare, comparefn, le_key.
  destruct (num x) as [| | |p], (num y) as [| | |q]; simpl; try congruence.
  intros _ _. rewrite <- Qle_alt, Qle_bool_iff. lra.
Qed.

Lemma sort_insert_perm (x : A) (l : list A) :
  Permutation (sort_insert comparefn x l) (x :: l).
Proof.
  induction l as [|y l IH]; simpl; [reflexivity |].
  destruct (SortCompare comparefn x y); try reflexivity.
  rewrite IH. apply perm_swap.
Qed.

Lemma Array_sort_perm (l : list A) :
  Permutation (Array_sort comparefn l) l.
Proof.
  induction l as [|x l IH]; simpl; [reflexivity |].
  unfold Array_sort in *. simpl. rewrite sort_insert_perm. now constructor.
Qed.

Lemma sort_insert_sorted (x : A) (l : list A) :
  num x <> NaN -> Forall (fun y => num y <> NaN) l ->
  StronglySorted le_key l ->
  StronglySorted le_key (sort_insert comparefn x l).
Proof.
  intros Hx Hl Hs. induction Hs as [|y l Hs IH Hy]; simpl.
  - repeat constructor.
  - inversion Hl as [|? ? Hny Hnl]; subst.
    destruct (SortCompare comparefn x y) eqn:E.
    1, 2: assert (Hxy : le_key x y) by (apply SortCompare_not_Gt; congruence).
    1, 2: constructor; [now constructor |].
    1, 2: constructor; [exact Hxy |].
    1, 2: eapply Forall_impl; [exact Hy |].
    1, 2: intros z Hz; eapply jsLeb_trans; [exact Hxy | exact Hz].
    constructor; [now apply IH |].
    eapply Permutation_Forall; [symmetry; apply sort_insert_perm |].
    constructor; [now apply SortCompare_Gt | exact Hy].
Qed.

Lemma Array_sort_sorted (l : list A) :
  Forall (fun y => num y <> NaN) l ->
  StronglySorted le_key (Array_sort comparefn l).
Proof.
  induction 1 as [|x l Hx Hl IH]; [constructor |].
  change (Array_sort comparefn (x :: l))
    with (sort_insert comparefn x (Array_sort comparefn l)).
  apply sort_insert_sorted; [exact Hx | | exact IH].
  eapply Permutation_Forall; [symmetry; apply Array_sort_perm | exact Hl].
Qed.

(** A list already in order is returned as it is: entries with equal keys
    keep their relative position. *)
Lemma Array_sort_sorted_id (l : list A) :
  Forall (fun y => num y <> NaN) l ->
  StronglySorted le_key l -> Array_sort comparefn l = l.
Proof.
  intros Hl Hs. induction Hs as [|x l Hs IH Hx]; [reflexivity |].
  inversion Hl as [|? ? Hnx Hnl]; subst.
  change (Array_sort comparefn (x :: l))
    with (sort_insert comparefn x (Array_sort comparefn l)).
  rewrite IH by assumption.
  destruct l as [|y l]; [reflexivity |]. simpl.
  inversion Hx as [|? ? Hxy _]; subst.
  destruct (SortCompare comparefn x y) eqn:E; try reflexivity.
  exfalso. unfold SortCompare, comparefn, le_key in *.
  destruct (num x) as [| | |p], (num y) as [| | |q]; simpl in *; try congruence.
  apply Qgt_alt in E. apply Qle_bool_iff in Hxy. lra.
Qed.

Lemma SortCompare_Gt_strict (x y : A) :
  SortCompare comparefn x y = Gt -> jsLeb (num x) (num y) = false.
Proof.
  unfold SortCompare, comparefn.
  destruct (num x) as [| | |p], (num y) as [| | |q]; simpl; try congruence.
  rewrite <- Qgt_alt. intros Hgt.
  destruct (Qle_bool p q) eqn:E; [| reflexivity].
  apply Qle_bool_iff in E. lra.
Qed.

(** Insertion is stable: the entries whose key equals a given number come
    out in the order they went in. *)
Lemma sort_insert_stable (n : JsNumber) (x : A) (l : list A) :
  let same y := jsLeb n (num y) && jsLeb (num y) n in
  List.filter same (sort_insert comparefn x l) = List.filter same (x :: l).
Proof.
  intros same. induction l as [|y l IH]; [reflexivity |].
  simpl sort_insert. destruct (SortCompare comparefn x y) eqn:E; try reflexivity.
  apply SortCompare_Gt_strict in E.
  cbn [List.filter]. rewrite IH. cbn [List.filter].
  destruct (same x) eqn:Ex, (same y) eqn:Ey; try reflexivity.
  unfold same in Ex, Ey.
  apply andb_true_iff in Ex as [_ Ex]. apply andb_true_iff in Ey as [Ey _].
  rewrite (jsLeb_trans _ _ _ Ex Ey) in E. discriminate.
Qed.

Lemma Array_sort_stable (n : JsNumber) (l : list A) :
  let same y := jsLeb n (num y) && jsLeb (num y) n in
  List.filter same (Array_sort comparefn l) = List.filter same l.
Proof.
  intros same. induction l as [|x l IH]; [reflexivity |].
  change (Array_sort comparefn (x :: l))
    with (sort_insert comparefn x (Array_sort comparefn l)).
  pose proof (sort_insert_stable n x (Array_sort comparefn l)) as Hi.
  cbv zeta in Hi. fold same in Hi. rewrite Hi.
  cbn [List.filter]. now rewrite IH.
Qed.

End SortByKey.

(** ** Profile page: the reshaping step and the lookup *)

Section ProfilePageFacts.
Context `{JsRuntime}.

Let le_key (e1 e2 : string * JsValue) : Prop :=
  jsLeb (Number e1.1) (Number e2.1) = true.

(** [Object.entries] is only applied to a value that went through [|| {}],
    so it does not throw. *)
Lemma entries_of_or_empty (v : JsValue) :
  exists entries, Object_entries (jsOr v (JObj [])) = Normal entries.
Proof.
  unfold jsOr. destruct v as [| |b|n|s|items|props]; simpl; eauto.
  - destruct b; simpl; eauto.
  - destruct n as [| | |q]; simpl; eauto. destruct (Qeq_bool q 0); simpl; eauto.
  - destruct (String.eqb s ""); simpl; eauto.
Qed.

(** The step never throws: on a document it answers the document with a
    [propsList] array set. *)
Lemma reshape_some (d : Obj) :
  exists propsList,
    ProfilePage.reshape (Some d)
    = Normal (JObj (obj_set d "propsList" (JArr propsList))).
Proof.
  unfold ProfilePage.reshape.
  destruct (entries_of_or_empty (obj_get d "Propositions")) as [entries ->].
  simpl. eauto.
Qed.

Lemma reshape_total (data : option Obj) :
  exists v, ProfilePage.reshape data = Normal v.
Proof.
  destruct data as [d|]; [| now exists JNull].
  destruct (reshape_some d) as [l ->]. eauto.
Qed.

(** C1: when the [Propositions] field of a document is a map all of whose
    keys convert to numbers, the reshaping step sets [propsList] to the
    values of an arrangement of the map's entries that contains exactly
    these entries and is in ascending order of [Number(key)]. *)
Theorem reshape_sorts_propositions (d props : Obj) :
  obj_get d "Propositions" = JObj props ->
  Forall (fun e => Number e.1 <> NaN) props ->
  exists sorted,
    Permutation sorted props /\
    Permutation (map snd sorted) (map snd props) /\
    StronglySorted le_key sorted /\
    ProfilePage.reshape (Some d)
    = Normal (JObj (obj_set d "propsList" (JArr (map snd sorted)))).
Proof.
  intros Hget Hnum.
  exists (Array_sort ProfilePage.byKey props).
  pose proof (Array_sort_perm (fun e : string * JsValue => Number e.1) props) as Hp.
  repeat split.
  - exact Hp.
  - now apply Permutation_map.
  - now apply (Array_sort_sorted (fun e : string * JsValue => Number e.1)).
  - unfold ProfilePage.reshape. rewrite Hget. reflexivity.
Qed.

(** C10: when the [Propositions] field of a document is missing, [null] or
    any other falsy value, the reshaping step does not throw and sets
    [propsList] to the empty array. *)
Theorem reshape_without_propositions (d : Obj) :
  truthy (obj_get d "Propositions") = false ->
  ProfilePage.reshape (Some d)
  = Normal (JObj (obj_set d "propsList" (JArr []))) /\
  obj_get (obj_set d "propsList" (JArr [])) "propsList" = JArr [].
Proof.
  intros Hfalsy. split; [| apply obj_get_set_eq].
  unfold ProfilePage.reshape, jsOr. rewrite Hfalsy. reflexivity.
Qed.

(** C4 (amended): [politician$] emits [null] exactly when the query for the
    documents whose [Name] equals the route parameter has an empty snapshot;
    otherwise it emits the data of the first document of the snapshot with
    the field [propsList] set to an array, every other field being the
    document's. *)
Theorem politician_null_iff_empty (col : Collection) (name : string) :
  (ProfilePage.politician col name = Normal JNull
   <-> where_eq "Name" name col = []) /\
  match where_eq "Name" name col with
  | [] => ProfilePage.politician col name = Normal JNull
  | d :: _ =>
      exists propsList r,
        ProfilePage.politician col name = Normal (JObj r) /\
        r = obj_set d "propsList" (JArr propsList) /\
        obj_get r "propsList" = JArr propsList /\
        forall k, k <> "propsList" -> obj_get r k = obj_get d k
  end.
Proof.
  unfold ProfilePage.politician.
  destruct (where_eq "Name" name col) as [|d rest]; simpl ProfilePage.firstData.
  - split; [split; reflexivity | reflexivity].
  - destruct (reshape_some d) as [l Hl]. split.
    + rewrite Hl. split; discriminate.
    + exists l, (obj_set d "propsList" (JArr l)).
      repeat split; [exact Hl | apply obj_get_set_eq |].
      intros k Hk. apply obj_get_set_ne. congruence.
Qed.

End ProfilePageFacts.

Lemma where_eq_first (field value : string) (col : Collection) (d : Obj) (rest : list Obj) :
  where_eq field value col = d :: rest ->
  exists before after,
    col = before ++ d :: after /\
    obj_get d field = JStr value /\
    Forall (fun d' => obj_get d' field <> JStr value) before.
Proof.
  unfold where_eq. induction col as [|d0 col IH]; simpl; [discriminate |].
  destruct (isStr value (obj_get d0 field)) eqn:E.
  - intros [= -> _]. exists [], col. repeat split; [| constructor].
    unfold isStr in E. destruct (obj_get d field); try discriminate.
    now apply String.eqb_eq in E as ->.
  - intros Hf. destruct (IH Hf) as (before & after & -> & Hd & Hb).
    exists (d0 :: before), after. repeat split; [exact Hd |].
    constructor; [| exact Hb].
    intros Heq. rewrite Heq in E. simpl in E.
    now rewrite String.eqb_refl in E.
Qed.

(** Witness of C1: keys ["1"], ["10"] and ["02"] in property order. *)
Lemma reshape_sorts_propositions_witness :
  let props := [("1", JStr "a"); ("10", JStr "c"); ("02", JStr "b")] in
  let d := [("Name", JStr "Ada"); ("Propositions", JObj props)] in
  obj_get d "Propositions" = JObj props /\
  Forall (fun e => Number e.1 <> NaN) props /\
  exists sorted,
    Permutation sorted props /\
    Permutation (map snd sorted) (map snd props) /\
    StronglySorted
      (fun e1 e2 => jsLeb (Number e1.1) (Number e2.1) = true) sorted /\
    ProfilePage.reshape (Some d)
    = Normal (JObj (obj_set d "propsList" (JArr (map snd sorted)))).
Proof.
  intros props d.
  assert (Hget : obj_get d "Propositions" = JObj props) by reflexivity.
  assert (Hnum : Forall (fun e => Number e.1 <> NaN) props)
    by (repeat constructor; vm_compute; discriminate).
  split; [exact Hget |]. split; [exact Hnum |].
  exact (reshape_sorts_propositions d props Hget Hnum).
Defined.

Example reshape_example :
  ProfilePage.reshape
    (Some [("Name", JStr "Ada");
           ("Propositions",
            JObj [("1", JStr "a"); ("10", JStr "c"); ("02", JStr "b")])])
  = Normal
      (JObj [("Name", JStr "Ada");
             ("Propositions",
              JObj [("1", JStr "a"); ("10", JStr "c"); ("02", JStr "b")]);
             ("propsList", JArr [JStr "a"; JStr "b"; JStr "c"])]).
Proof. vm_compute. reflexivity. Qed.

(** Witness of C10: a document whose [Propositions] field is [null]. *)
Lemma reshape_without_propositions_witness :
  let d := [("Name", JStr "Ada"); ("Propositions", JNull)] in
  truthy (obj_get d "Propositions") = false /\
  ProfilePage.reshape (Some d)
  = Normal (JObj (obj_set d "propsList" (JArr []))) /\
  obj_get (obj_set d "propsList" (JArr [])) "propsList" = JArr [].
Proof.
  intros d. split; [reflexivity |].
  apply (reshape_without_propositions d). reflexivity.
Defined.

Example reshape_missing_field :
  ProfilePage.reshape (Some [("Name", JStr "Ada")])
  = Normal (JObj [("Name", JStr "Ada"); ("propsList", JArr [])]).
Proof. reflexivity. Qed.

(** C4 as stated fails: the snapshot is not empty, and what [politician$]
    emits is not the data of its first document (it has one more field). *)
Lemma politician_is_not_the_document :
  let d := [("Name", JStr "Ada")] in
  where_eq "Name" "Ada" [d] = [d] /\
  ProfilePage.politician [d] "Ada"
  = Normal (JObj [("Name", JStr "Ada"); ("propsList", JArr [])]) /\
  ProfilePage.politician [d] "Ada" <> Normal (JObj d).
Proof.
  intros d. split; [reflexivity |]. split; [reflexivity |].
  vm_compute. discriminate.
Qed.

(** ** Profile page: status class, modal, navigation *)

Section StatusClass.
Context `{JsRuntime}.

Lemma includes_false (s sub : string) :
  includes s sub = false <-> ~ Substring sub s.
Proof.
  unfold Substring. rewrite <- includes_spec.
  destruct (includes s sub); split; congruence.
Qed.

Lemma lowered_some (t : string) : ProfilePage.lowered (Some t) = toLowerCase t.
Proof.
  unfold ProfilePage.lowered.
  destruct (String.eqb_spec (toLowerCase t) ""); congruence.
Qed.

(** C6: [getStatusClass] looks at the lowercased status (the empty string for
    a [null] or [undefined] status) and answers by the first of the
    substrings [success], [compromised], [failed] that occurs in it, and
    [status-default] when none does. *)
Theorem getStatusClass_first_match (status : option string) :
  let s := match status with Some t => toLowerCase t | None => "" end in
  (Substring "success" s ->
   ProfilePage.getStatusClass status = "status-success") /\
  (~ Substring "success" s -> Substring "compromised" s ->
   ProfilePage.getStatusClass status = "status-compromised") /\
  (~ Substring "success" s -> ~ Substring "compromised" s ->
   Substring "failed" s ->
   ProfilePage.getStatusClass status = "status-failed") /\
  (~ Substring "success" s -> ~ Substring "compromised" s ->
   ~ Substring "failed" s ->
   ProfilePage.getStatusClass status = "status-default") /\
  ProfilePage.getStatusClass None = "status-default".
Proof.
  intros s.
  assert (Hs : ProfilePage.lowered status = s).
  { destruct status as [t|]; [apply lowered_some | reflexivity]. }
  unfold ProfilePage.getStatusClass. rewrite Hs.
  repeat split; try reflexivity.
  - intros H1. apply includes_spec in H1. now rewrite H1.
  - intros H1 H2. apply includes_false in H1. apply includes_spec in H2.
    now rewrite H1, H2.
  - intros H1 H2 H3. apply includes_false in H1, H2. apply includes_spec in H3.
    now rewrite H1, H2, H3.
  - intros H1 H2 H3. apply includes_false in H1, H2, H3.
    now rewrite H1, H2, H3.
Qed.

End StatusClass.

Example getStatusClass_mixed_case :
  ProfilePage.getStatusClass (Some "Partially FAILED, then Success")
  = "status-success".
Proof. reflexivity. Qed.

Example getStatusClass_compromised :
  ProfilePage.getStatusClass (Some "Compromised (failed vote)")
  = "status-compromised".
Proof. reflexivity. Qed.

Example getStatusClass_other :
  ProfilePage.getStatusClass (Some "Pending") = "status-default".
Proof. reflexivity. Qed.

(** C7: [openModal(p)] sets [selectedProp] to [p] and the body overflow to
    [hidden]; a [closeModal] after it sets them to [null] and [auto];
    [closeModal] twice is [closeModal] once; neither touches another
    field. *)
Theorem modal_round_trip (p : JsValue) (st : ProfilePage.State) :
  ProfilePage.selectedProp (ProfilePage.openModal p st) = p /\
  ProfilePage.bodyOverflow (ProfilePage.openModal p st) = "hidden" /\
  ProfilePage.selectedProp (ProfilePage.closeModal (ProfilePage.openModal p st))
  = JNull /\
  ProfilePage.bodyOverflow (ProfilePage.closeModal (ProfilePage.openModal p st))
  = "auto" /\
  ProfilePage.closeModal (ProfilePage.openModal p st) = ProfilePage.closeModal st /\
  ProfilePage.closeModal (ProfilePage.closeModal st) = ProfilePage.closeModal st /\
  ProfilePage.validNames (ProfilePage.openModal p st) = ProfilePage.validNames st /\
  ProfilePage.validNames (ProfilePage.closeModal st) = ProfilePage.validNames st.
Proof. repeat split. Qed.

Lemma knows_spec (st : ProfilePage.State) (person : string) :
  ProfilePage.knows st person = true
  <-> In (JStr person) (ProfilePage.validNames st).
Proof.
  unfold ProfilePage.knows. rewrite existsb_exists. split.
  - intros [v [Hin Hv]]. destruct v; try discriminate.
    simpl in Hv. now apply String.eqb_eq in Hv as ->.
  - intros Hin. exists (JStr person). split; [exact Hin |].
    simpl. apply String.eqb_refl.
Qed.

(** C8: [toPage(person)] asks the router for [/profile/person] exactly when
    [person] is in [validNames], the list the name fetch stored; for any
    other [person] it only logs the warning; the component's fields are left
    as they were in both cases. *)
Theorem toPage_only_valid_names (person : string) (st : ProfilePage.State) :
  (ProfilePage.toPage person st).1 = st /\
  (In (JStr person) (ProfilePage.validNames st) ->
   (ProfilePage.toPage person st).2
   = [ProfilePage.Navigate ["/profile"; person]]) /\
  (~ In (JStr person) (ProfilePage.validNames st) ->
   (ProfilePage.toPage person st).2
   = [ProfilePage.Warn "Person not found in list"]) /\
  (forall commands,
     In (ProfilePage.Navigate commands) (ProfilePage.toPage person st).2 ->
     commands = ["/profile"; person] /\
     In (JStr person) (ProfilePage.validNames st)) /\
  (forall col,
     ProfilePage.validNames (ProfilePage.loadNames col st)
     = map (fun d => obj_get d "Name") col).
Proof.
  unfold ProfilePage.toPage.
  destruct (ProfilePage.knows st person) eqn:E; simpl.
  - apply knows_spec in E.
    split; [reflexivity |]. split; [reflexivity |]. split; [tauto |].
    split; [| reflexivity].
    intros commands [Hc|[]]. split; [congruence | exact E].
  - assert (Hn : ~ In (JStr person) (ProfilePage.validNames st))
      by (rewrite <- knows_spec; congruence).
    split; [reflexivity |]. split; [tauto |]. split; [reflexivity |].
    split; [| reflexivity].
    intros commands [Hc|[]]. discriminate.
Qed.

Example toPage_before_fetch :
  ProfilePage.toPage "Ada" ProfilePage.initial
  = (ProfilePage.initial, [ProfilePage.Warn "Person not found in list"]).
Proof. reflexivity. Qed.

Example toPage_after_fetch :
  let st := ProfilePage.loadNames
              [[("Name", JStr "Ada")]; [("Name", JStr "Bob")]]
              ProfilePage.initial in
  ProfilePage.toPage "Bob" st = (st, [ProfilePage.Navigate ["/profile"; "Bob"]])
  /\ ProfilePage.toPage "Eve" st
     = (st, [ProfilePage.Warn "Person not found in list"]).
Proof. split; reflexivity. Qed.

(** ** Home page: the filter and the navigation *)

Section HomepageFacts.
Context `{JsRuntime}.

(** The first revision of the filter keeps the options whose lowercased form
    contains the lowercased query, in their order. *)
Lemma initial_filter_spec (options : list string) (v : string) :
  exists keep : string -> bool,
    (forall o, keep o = true <-> Substring (toLowerCase v) (toLowerCase o)) /\
    HomepageInitial._filter options v = List.filter keep options.
Proof.
  exists (fun o => includes (toLowerCase o) (toLowerCase v)). split.
  - intros o. apply includes_spec.
  - reflexivity.
Qed.

(** C2 (amended): for every query [v] and list of option strings, the filter
    returns, in their original order, exactly the options that are not the
    empty string and whose lowercased form contains the lowercased [v] as a
    substring. *)
Theorem filter_nonempty_substring_matches (options : list string) (v : string) :
  exists keep : string -> bool,
    (forall o, keep o = true
               <-> o <> "" /\ Substring (toLowerCase v) (toLowerCase o)) /\
    Homepage._filter options v = List.filter keep options /\
    (forall o, In o (Homepage._filter options v)
               <-> In o options /\ o <> ""
                   /\ Substring (toLowerCase v) (toLowerCase o)).
Proof.
  set (keep := fun o : string =>
         negb (String.eqb o "") && includes (toLowerCase o) (toLowerCase v)).
  assert (Hkeep : forall o, keep o = true
            <-> o <> "" /\ Substring (toLowerCase v) (toLowerCase o)).
  { intros o. unfold keep, Substring.
    rewrite andb_true_iff, negb_true_iff, includes_spec.
    destruct (String.eqb_spec o ""); intuition congruence. }
  exists keep. split; [exact Hkeep |]. split; [reflexivity |].
  intros o. unfold Homepage._filter. fold keep.
  rewrite filter_In, Hkeep. tauto.
Qed.

Lemma filter_head_nonempty (options : list string) (v m : string) (rest : list string) :
  Homepage._filter options v = m :: rest -> String.eqb m "" = false.
Proof.
  intros Hf.
  assert (Hin : In m (Homepage._filter options v)) by (rewrite Hf; now left).
  unfold Homepage._filter in Hin. apply filter_In in Hin as [_ Hm].
  apply andb_true_iff in Hm as [Hm _]. now apply negb_true_iff in Hm.
Qed.

(** C9 (amended): once the control has emitted [value], [goToPage(inputValue)]
    looks at the first option the filter returns for it.  If there is one, it
    navigates to that option's profile when the option is not blank after
    trimming, and does nothing when it is blank, whatever [inputValue] is.
    If there is none, it navigates to [inputValue] when that is neither
    [null], empty, nor blank after trimming, and does nothing otherwise. *)
Theorem goToPage_top_match_first
  (value inputValue : option string) (st : Homepage.State) :
  let st' := Homepage.setValue value st in
  match Homepage._filter (Homepage.options st) (orEmpty value) with
  | m :: _ =>
      Homepage.topMatch st' = Some m /\
      Homepage.goToPage inputValue st'
      = if String.eqb (trim m) "" then []
        else [Homepage.Navigate ["/profile"; m]]
  | [] =>
      Homepage.topMatch st' = None /\
      Homepage.goToPage inputValue st'
      = match inputValue with
        | None => []
        | Some i =>
            if String.eqb i "" || String.eqb (trim i) "" then []
            else [Homepage.Navigate ["/profile"; i]]
        end
  end.
Proof.
  unfold Homepage.setValue, Homepage.onValue, Homepage.goToPage. simpl.
  destruct (Homepage._filter (Homepage.options st) (orEmpty value))
    as [|m rest] eqn:Hf; simpl.
  - split; [reflexivity |].
    destruct inputValue as [i|]; [| reflexivity]. unfold orElse.
    destruct (String.eqb i "") eqn:Ei; simpl; [reflexivity |].
    destruct (String.eqb (trim i) ""); reflexivity.
  - split; [reflexivity |].
    apply filter_head_nonempty in Hf.
    unfold orElse. rewrite Hf. simpl. rewrite Hf. simpl.
    destruct (String.eqb (trim m) ""); reflexivity.
Qed.

(** The list that arrives from the store goes through the same step, with
    the value the control holds. *)
Lemma onNames_top_match (names : list string) (st : Homepage.State) :
  Homepage.topMatch (Homepage.onNames names st)
  = hd_error (Homepage._filter names (orEmpty (Homepage.control st))).
Proof.
  unfold Homepage.onNames, Homepage.setValue, Homepage.onValue. simpl.
  now destruct (Homepage._filter names (orEmpty (Homepage.control st))).
Qed.

End HomepageFacts.

(** C2 as stated fails on the current filter: the empty option contains the
    empty query, and is not returned. *)
Lemma filter_drops_empty_option :
  let options := [""; "Ada"] in
  Homepage._filter options "" = ["Ada"] /\
  List.filter (fun o => includes (toLowerCase o) (toLowerCase "")) options
  = [""; "Ada"] /\
  Homepage._filter options ""
  <> List.filter (fun o => includes (toLowerCase o) (toLowerCase "")) options.
Proof. repeat split. discriminate. Qed.

Example filter_case_insensitive :
  Homepage._filter ["Ada Lovelace"; "Bob"; "Grace Hopper"; "ADAM"] "aDa"
  = ["Ada Lovelace"; "ADAM"].
Proof. reflexivity. Qed.

(** C9 as stated fails: the filter has a first match for the current input,
    and [goToPage] does not navigate to it. *)
Lemma goToPage_blank_top_match :
  let st := Homepage.setValue (Some " ")
              (Homepage.onNames [" "; "Ada"] Homepage.initial) in
  Homepage._filter (Homepage.options st) " " = [" "] /\
  Homepage.topMatch st = Some " " /\
  Homepage.goToPage (Some " ") st = [] /\
  Homepage.goToPage (Some " ") st <> [Homepage.Navigate ["/profile"; " "]].
Proof. repeat split. discriminate. Qed.

Example goToPage_prefers_top_match :
  let st := Homepage.setValue (Some "ad")
              (Homepage.onNames ["Bob"; "Ada"; "Adam"] Homepage.initial) in
  Homepage.goToPage (Some "ad") st = [Homepage.Navigate ["/profile"; "Ada"]].
Proof. reflexivity. Qed.

Example goToPage_raw_input :
  let st := Homepage.setValue (Some "Zed")
              (Homepage.onNames ["Bob"; "Ada"] Homepage.initial) in
  Homepage.goToPage (Some "Zed") st = [Homepage.Navigate ["/profile"; "Zed"]]
  /\ Homepage.goToPage None st = []
  /\ Homepage.goToPage (Some "   ") st = [].
Proof. repeat split. Qed.

(** ** Enrichment script *)

Section ScraperFacts.
Import Scraper.

Lemma keys_distinct : sentence_key <> paragraph_key.
Proof. discriminate. Qed.


Lemma has_summaries_false (p : gmap string string) :
  has_summaries p = false
  <-> p !! sentence_key = None /\ p !! paragraph_key = None.
Proof.
  unfold has_summaries. rewrite bool_decide_eq_false.
  rewrite !eq_None_not_Some. tauto.
Qed.


Lemma enrich_error (o : Oracle) (p : gmap string string) :
  o p = None -> enrich o p = p.
Proof. intros E. unfold enrich. rewrite E. now destruct (has_summaries p). Qed.

Lemma enrich_success (o : Oracle) (p : gmap string string) (s1 s2 : string) :
  has_summaries p = false -> o p = Some (s1, s2) ->
  enrich o p = <[paragraph_key := s2]> (<[sentence_key := s1]> p).
Proof. intros E Ho. unfold enrich. now rewrite E, Ho. Qed.




(** C5 (amended): for a proposition without sentiment data the step, when
    the calls succeed, writes the two fields [sentiment_sentence_summary]
    and [sentiment_paragraph_summary] with the two generated strings and
    adds no other field name; when a call fails it writes nothing.  In every
    case every other field, [Name], [Desc], [Verdict] and [Verdict_desc]
    among them, reads as before. *)
Theorem enrich_writes_two_fields (o : Oracle) (p : gmap string string) :
  has_summaries p = false ->
  match o p with
  | Some (s1, s2) =>
      enrich o p !! sentence_key = Some s1 /\
      enrich o p !! paragraph_key = Some s2 /\
      dom (enrich o p) = dom p ∪ {[sentence_key; paragraph_key]}
  | None => enrich o p = p
  end /\
  (forall f, f <> sentence_key -> f <> paragraph_key ->
             enrich o p !! f = p !! f) /\
  enrich o p !! "Name" = p !! "Name" /\
  enrich o p !! "Desc" = p !! "Desc" /\
  enrich o p !! "Verdict" = p !! "Verdict" /\
  enrich o p !! "Verdict_desc" = p !! "Verdict_desc".
Proof.
  intros E.
  assert (Hframe : forall f, f <> sentence_key -> f <> paragraph_key ->
            enrich o p !! f = p !! f).
  { intros f H1 H2. unfold enrich. rewrite E.
    destruct (o p) as [[s1 s2]|]; [| reflexivity].
    now rewrite !lookup_insert_ne by congruence. }
  split.
  { destruct (o p) as [[s1 s2]|] eqn:Ho; [| now apply enrich_error].
    rewrite (enrich_success o p s1 s2 E Ho).
    split.
    { rewrite lookup_insert_ne by (symmetry; apply keys_distinct).
      apply lookup_insert_eq. }
    split; [apply lookup_insert_eq |].
    rewrite !dom_insert_L. apply set_eq. intros f.
    rewrite !elem_of_union, !elem_of_singleton. tauto. }
  split; [exact Hframe |].
  do 3 (split; [apply Hframe; discriminate |]).
  apply Hframe; discriminate.
Qed.

End ScraperFacts.

(** Witness of C5: a proposition with the four descriptive fields, and
    services that answer. *)
Lemma enrich_writes_two_fields_witness :
  let p : gmap string string :=
    <["Name" := "Bill 12"]> (<["Desc" := "Road repairs"]>
      (<["Verdict" := "Success"]> (<["Verdict_desc" := "Passed"]> ∅))) in
  let o : Scraper.Oracle :=
    fun _ => Some ("Mostly liked.", "People mostly liked it.") in
  Scraper.has_summaries p = false /\
  (match o p with
   | Some (s1, s2) =>
       Scraper.enrich o p !! Scraper.sentence_key = Some s1 /\
       Scraper.enrich o p !! Scraper.paragraph_key = Some s2 /\
       dom (Scraper.enrich o p)
       = dom p ∪ {[Scraper.sentence_key; Scraper.paragraph_key]}
   | None => Scraper.enrich o p = p
   end /\
   (forall f, f <> Scraper.sentence_key -> f <> Scraper.paragraph_key ->
              Scraper.enrich o p !! f = p !! f) /\
   Scraper.enrich o p !! "Name" = p !! "Name" /\
   Scraper.enrich o p !! "Desc" = p !! "Desc" /\
   Scraper.enrich o p !! "Verdict" = p !! "Verdict" /\
   Scraper.enrich o p !! "Verdict_desc" = p !! "Verdict_desc").
Proof.
  intros p o.
  assert (E : Scraper.has_summaries p = false) by (vm_compute; reflexivity).
  split; [exact E |].
  exact (enrich_writes_two_fields o p E).
Defined.


(** C5 as stated fails: the proposition has no sentiment data, a call fails,
    and no field is written. *)
Lemma error_writes_no_field :
  let p : gmap string string :=
    <["Name" := "Bill 12"]> (<["Verdict" := "Success"]> ∅) in
  let failing : Scraper.Oracle := fun _ => None in
  Scraper.has_summaries p = false /\
  Scraper.enrich failing p !! Scraper.sentence_key = None /\
  Scraper.enrich failing p !! Scraper.paragraph_key = None.
Proof. vm_compute. repeat split. Qed.

Example enrich_adds_summaries :
  let p : gmap string string :=
    <["Name" := "Bill 12"]> (<["Verdict" := "Success"]> ∅) in
  let p' := Scraper.enrich (fun _ => Some ("Liked.", "People liked it.")) p in
  p' !! "sentiment_sentence_summary" = Some "Liked." /\
  p' !! "sentiment_paragraph_summary" = Some "People liked it." /\
  p' !! "Verdict" = Some "Success".
Proof. vm_compute. repeat split. Qed.

Example enrich_keeps_existing_summaries :
  let p : gmap string string :=
    <["Name" := "Bill 12"]>
      (<["sentiment_sentence_summary" := "old"]>
         (<["sentiment_paragraph_summary" := "old paragraph"]> ∅)) in
  Scraper.enrich (fun _ => Some ("new", "new paragraph")) p
  !! "sentiment_sentence_summary" = Some "old".
Proof. vm_compute. reflexivity. Qed.

Example enrich_keeps_a_single_summary :
  let p : gmap string string :=
    <["Name" := "Bill 12"]> (<["sentiment_sentence_summary" := "old"]> ∅) in
  Scraper.enrich (fun _ => Some ("new", "new paragraph")) p = p.
Proof. reflexivity. Qed.

(** ** Keys made of digits in the ASCII runtime *)

Section DigitKeys.
Import AsciiRuntime.

Lemma digit_not_space (c : ascii) (d : Z) : digit c = Some d -> is_space c = false.
Proof.
  unfold digit, is_space.
  destruct ((48 <=? N_of_ascii c)%N && (N_of_ascii c <=? 57)%N) eqn:E;
    [| discriminate].
  intros _. apply andb_true_iff in E as [E1 E2].
  apply N.leb_le in E1, E2.
  apply orb_false_iff. split.
  - apply andb_false_iff. right. apply N.leb_gt. lia.
  - apply N.eqb_neq. lia.
Qed.

Lemma trim_end_digits (s : string) : all_digits s = true -> trim_end s = s.
Proof.
  induction s as [|c s IH]; [reflexivity |]. simpl.
  destruct (digit c) as [d|] eqn:Ed; [| discriminate]. simpl.
  intros Hs. rewrite (IH Hs).
  destruct s; [| reflexivity].
  now rewrite (digit_not_space c d Ed).
Qed.

Lemma trim_both_digits (s : string) : all_digits s = true -> trim_both s = s.
Proof.
  intros Hs. unfold trim_both.
  assert (Hstart : trim_start s = s).
  { destruct s as [|c s]; [reflexivity |]. simpl in *.
    destruct (digit c) as [d|] eqn:Ed; [| discriminate].
    now rewrite (digit_not_space c d Ed). }
  rewrite Hstart. now apply trim_end_digits.
Qed.

Lemma digits_value_some (s : string) (acc : Z) :
  all_digits s = true -> exists z, digits_value acc s = Some z.
Proof.
  revert acc. induction s as [|c s IH]; intros acc; simpl; [eauto |].
  destruct (digit c) as [d|]; [| discriminate]. simpl. apply IH.
Qed.

Lemma nearest_double_not_NaN (z : Z) : nearest_double z <> NaN.
Proof.
  unfold nearest_double.
  destruct (z <? 2 ^ 53)%Z; [discriminate |].
  match goal with |- context [if ?b then PosInf else _] => destruct b end;
    discriminate.
Qed.

(** A key written with digits only converts to a number. *)
Lemma to_number_digit_key (s : string) :
  digit_key s = true -> to_number s <> NaN.
Proof.
  unfold digit_key. intros Hk. apply andb_true_iff in Hk as [Hne Hd].
  unfold to_number. rewrite (trim_both_digits s Hd).
  destruct s as [|c s]; [discriminate |].
  assert (Hc : exists d, digit c = Some d).
  { simpl in Hd. destruct (digit c); [eauto | discriminate]. }
  destruct Hc as [d Hc].
  assert (Hu : unsigned (String c s) <> NaN).
  { unfold unsigned.
    destruct (String.eqb_spec (String c s) "Infinity") as [Heq|_].
    - injection Heq as -> _. vm_compute in Hc. discriminate.
    - destruct (digits_value_some (String c s) 0 Hd) as [z ->].
      apply nearest_double_not_NaN. }
  destruct c as [[] [] [] [] [] [] [] []]; try exact Hu;
    vm_compute in Hc; discriminate.
Qed.

Example to_number_rounds :
  to_number "9007199254740993" = Fin (inject_Z 9007199254740992)
  /\ to_number " 42 " = Fin (inject_Z 42)
  /\ to_number "-7" = Fin (- inject_Z 7)
  /\ to_number "" = Fin 0
  /\ to_number "4 2" = NaN.
Proof. vm_compute. repeat split. Qed.

End DigitKeys.

(** ** Profile page: more on the reshaping step and the lookup *)

Section ReshapeFacts.
Context `{JsRuntime}.

Let le_key (e1 e2 : string * JsValue) : Prop :=
  jsLeb (Number e1.1) (Number e2.1) = true.

Lemma reshape_object (d props : Obj) :
  obj_get d "Propositions" = JObj props ->
  ProfilePage.reshape (Some d)
  = Normal (JObj (obj_set d "propsList"
                    (JArr (map snd (Array_sort ProfilePage.byKey props))))).
Proof. intros Hget. unfold ProfilePage.reshape. now rewrite Hget. Qed.

(** X1: the reshaping step never throws: [null] goes to [null], and a
    document, whatever its [Propositions] field holds, comes back with
    [propsList] set to an array. *)
Theorem reshape_never_throws (data : option Obj) :
  match data with
  | None => ProfilePage.reshape data = Normal JNull
  | Some d =>
      exists propsList,
        ProfilePage.reshape data
        = Normal (JObj (obj_set d "propsList" (JArr propsList)))
  end.
Proof. destruct data as [d|]; [apply reshape_some | reflexivity]. Qed.

(** X2: when [Propositions] is a map, [propsList] holds each of its values
    once, so it is as long as the map has entries, also when some keys do
    not convert to a number. *)
Theorem reshape_keeps_every_value (d props : Obj) :
  obj_get d "Propositions" = JObj props ->
  exists propsList,
    ProfilePage.reshape (Some d)
    = Normal (JObj (obj_set d "propsList" (JArr propsList))) /\
    Permutation propsList (map snd props) /\
    length propsList = length props.
Proof.
  intros Hget.
  pose proof (Array_sort_perm (fun e : string * JsValue => Number e.1) props) as Hp.
  exists (map snd (Array_sort ProfilePage.byKey props)).
  split; [now apply reshape_object |]. split.
  - now apply Permutation_map.
  - rewrite length_map. now apply Permutation_length.
Qed.

(** X3: when every key of the map converts to a number, the entries whose
    keys convert to one and the same number appear in [propsList] in the
    order the map lists them, the whole being in ascending order of
    [Number(key)]. *)
Theorem reshape_keeps_order_of_equal_keys (d props : Obj) :
  obj_get d "Propositions" = JObj props ->
  Forall (fun e => Number e.1 <> NaN) props ->
  exists sorted,
    ProfilePage.reshape (Some d)
    = Normal (JObj (obj_set d "propsList" (JArr (map snd sorted)))) /\
    StronglySorted le_key sorted /\
    forall n : JsNumber,
      List.filter
        (fun e => jsLeb n (Number e.1) && jsLeb (Number e.1) n) sorted
      = List.filter
          (fun e => jsLeb n (Number e.1) && jsLeb (Number e.1) n) props.
Proof.
  intros Hget Hnum. exists (Array_sort ProfilePage.byKey props).
  split; [now apply reshape_object |].
  split.
  - now apply (Array_sort_sorted (fun e : string * JsValue => Number e.1)).
  - intros n.
    exact (Array_sort_stable (fun e : string * JsValue => Number e.1) n props).
Qed.

(** X4: when the map already lists its entries in ascending order of
    [Number(key)], [propsList] is the list of its values in that very
    order. *)
Theorem reshape_ordered_map_unchanged (d props : Obj) :
  obj_get d "Propositions" = JObj props ->
  Forall (fun e => Number e.1 <> NaN) props ->
  StronglySorted le_key props ->
  ProfilePage.reshape (Some d)
  = Normal (JObj (obj_set d "propsList" (JArr (map snd props)))).
Proof.
  intros Hget Hnum Hsorted. rewrite (reshape_object d props Hget).
  unfold ProfilePage.byKey.
  now rewrite (Array_sort_sorted_id (fun e : string * JsValue => Number e.1)).
Qed.

Lemma where_eq_none (field value : string) (col : Collection) :
  Forall (fun d => obj_get d field <> JStr value) col ->
  where_eq field value col = [].
Proof.
  unfold where_eq. induction 1 as [|d col Hd _ IH]; [reflexivity |].
  simpl. rewrite IH.
  destruct (obj_get d field) as [| | | |s| |]; try reflexivity.
  simpl. destruct (String.eqb_spec s value); [congruence | reflexivity].
Qed.

Lemma where_eq_app (field value : string) (c1 c2 : Collection) :
  where_eq field value (c1 ++ c2)
  = where_eq field value c1 ++ where_eq field value c2.
Proof. unfold where_eq. apply List.filter_app. Qed.

(** X5: [politician$] is decided by the first document whose [Name] is the
    route parameter: the documents before it do not match and those after
    it, matching or not, are not looked at. *)
Theorem politician_first_match_only
  (before after : Collection) (d : Obj) (name : string) :
  Forall (fun d' => obj_get d' "Name" <> JStr name) before ->
  obj_get d "Name" = JStr name ->
  ProfilePage.politician (before ++ d :: after) name
  = ProfilePage.reshape (Some d).
Proof.
  intros Hbefore Hd. unfold ProfilePage.politician.
  rewrite where_eq_app, (where_eq_none _ _ _ Hbefore).
  unfold where_eq. cbn [app List.filter]. rewrite Hd.
  cbn [isStr]. now rewrite String.eqb_refl.
Qed.

(** X6: what [politician$] emits, when it is not [null], carries the route
    parameter in its [Name] field. *)
Theorem politician_name_is_parameter (col : Collection) (name : string) (r : Obj) :
  ProfilePage.politician col name = Normal (JObj r) ->
  obj_get r "Name" = JStr name.
Proof.
  unfold ProfilePage.politician.
  destruct (where_eq "Name" name col) as [|d rest] eqn:Hq; [discriminate |].
  change (ProfilePage.firstData (d :: rest)) with (Some d).
  destruct (reshape_some d) as [l ->]. intros [= <-].
  rewrite obj_get_set_ne by discriminate.
  now destruct (where_eq_first _ _ _ _ _ Hq) as (_ & _ & _ & Hd & _).
Qed.

Lemma knows_loaded (col : Collection) (st : ProfilePage.State) (person : string) :
  ProfilePage.knows (ProfilePage.loadNames col st) person
  = negb (match where_eq "Name" person col with [] => true | _ => false end).
Proof.
  unfold ProfilePage.knows, ProfilePage.loadNames, ProfilePage.names, where_eq.
  simpl. induction col as [|d col IH]; [reflexivity |].
  simpl. destruct (isStr person (obj_get d "Name")); [reflexivity | exact IH].
Qed.

(** X7: once the names of a collection are stored, [toPage(person)]
    navigates exactly when [politician$] for [person] on that collection is
    not [null]. *)
Theorem toPage_navigates_iff_profile_exists
  (col : Collection) (st : ProfilePage.State) (person : string) :
  (ProfilePage.toPage person (ProfilePage.loadNames col st)).2
  = [ProfilePage.Navigate ["/profile"; person]]
  <-> ProfilePage.politician col person <> Normal JNull.
Proof.
  unfold ProfilePage.toPage, ProfilePage.politician.
  rewrite knows_loaded.
  destruct (where_eq "Name" person col) as [|d rest].
  - simpl. split; [discriminate | congruence].
  - change (ProfilePage.firstData (d :: rest)) with (Some d).
    destruct (reshape_some d) as [l ->]. simpl.
    split; [discriminate | reflexivity].
Qed.

End ReshapeFacts.

(** Witness of X2: one key is not a number. *)
Lemma reshape_keeps_every_value_witness :
  let props := [("1", JStr "y"); ("b", JStr "x")] in
  let d := [("Name", JStr "Ada"); ("Propositions", JObj props)] in
  obj_get d "Propositions" = JObj props /\
  exists propsList,
    ProfilePage.reshape (Some d)
    = Normal (JObj (obj_set d "propsList" (JArr propsList))) /\
    Permutation propsList (map snd props) /\
    length propsList = length props.
Proof.
  intros props d.
  assert (Hget : obj_get d "Propositions" = JObj props) by reflexivity.
  split; [exact Hget |].
  exact (reshape_keeps_every_value d props Hget).
Defined.

(** Witness of X3: the keys ["1"] and ["01"] convert to the same number;
    the map lists its integer keys first. *)
Lemma reshape_keeps_order_of_equal_keys_witness :
  let props := [("1", JStr "a"); ("2", JStr "c"); ("01", JStr "b")] in
  let d := [("Propositions", JObj props)] in
  obj_get d "Propositions" = JObj props /\
  Forall (fun e => Number e.1 <> NaN) props /\
  exists sorted,
    ProfilePage.reshape (Some d)
    = Normal (JObj (obj_set d "propsList" (JArr (map snd sorted)))) /\
    StronglySorted
      (fun e1 e2 => jsLeb (Number e1.1) (Number e2.1) = true) sorted /\
    forall n : JsNumber,
      List.filter
        (fun e => jsLeb n (Number e.1) && jsLeb (Number e.1) n) sorted
      = List.filter
          (fun e => jsLeb n (Number e.1) && jsLeb (Number e.1) n) props.
Proof.
  intros props d.
  assert (Hget : obj_get d "Propositions" = JObj props) by reflexivity.
  assert (Hnum : Forall (fun e => Number e.1 <> NaN) props)
    by (repeat constructor; vm_compute; discriminate).
  split; [exact Hget |]. split; [exact Hnum |].
  exact (reshape_keeps_order_of_equal_keys d props Hget Hnum).
Defined.

Example reshape_equal_keys_example :
  ProfilePage.reshape
    (Some [("Propositions",
            JObj [("1", JStr "a"); ("2", JStr "c"); ("01", JStr "b")])])
  = Normal
      (JObj [("Propositions",
              JObj [("1", JStr "a"); ("2", JStr "c"); ("01", JStr "b")]);
             ("propsList", JArr [JStr "a"; JStr "b"; JStr "c"])]).
Proof. vm_compute. reflexivity. Qed.

(** Witness of X4: integer keys, which a map lists in ascending order. *)
Lemma reshape_ordered_map_unchanged_witness :
  let props := [("1", JStr "a"); ("2", JStr "b"); ("10", JStr "c")] in
  let d := [("Name", JStr "Ada"); ("Propositions", JObj props)] in
  obj_get d "Propositions" = JObj props /\
  Forall (fun e => Number e.1 <> NaN) props /\
  StronglySorted
    (fun e1 e2 => jsLeb (Number e1.1) (Number e2.1) = true) props /\
  ProfilePage.reshape (Some d)
  = Normal (JObj (obj_set d "propsList" (JArr (map snd props)))).
Proof.
  intros props d.
  assert (Hget : obj_get d "Propositions" = JObj props) by reflexivity.
  assert (Hnum : Forall (fun e => Number e.1 <> NaN) props)
    by (repeat constructor; vm_compute; discriminate).
  assert (Hsorted : StronglySorted
            (fun e1 e2 => jsLeb (Number e1.1) (Number e2.1) = true) props)
    by (repeat constructor).
  split; [exact Hget |]. split; [exact Hnum |]. split; [exact Hsorted |].
  exact (reshape_ordered_map_unchanged d props Hget Hnum Hsorted).
Defined.

(** Witness of X5: two documents named [Ada], after one named [Bob]. *)
Lemma politician_first_match_only_witness :
  let before := [[("Name", JStr "Bob")]] in
  let d := [("Name", JStr "Ada"); ("Party", JStr "A")] in
  let after := [[("Name", JStr "Ada"); ("Party", JStr "B")]] in
  Forall (fun d' => obj_get d' "Name" <> JStr "Ada") before /\
  obj_get d "Name" = JStr "Ada" /\
  ProfilePage.politician (before ++ d :: after) "Ada"
  = ProfilePage.reshape (Some d).
Proof.
  intros before d after.
  assert (Hb : Forall (fun d' => obj_get d' "Name" <> JStr "Ada") before)
    by (repeat constructor; discriminate).
  assert (Hd : obj_get d "Name" = JStr "Ada") by reflexivity.
  split; [exact Hb |]. split; [exact Hd |].
  exact (politician_first_match_only before after d "Ada" Hb Hd).
Defined.

(** Witness of X6. *)
Lemma politician_name_is_parameter_witness :
  let col := [[("Name", JStr "Bob")]; [("Name", JStr "Ada")]] in
  let r := [("Name", JStr "Ada"); ("propsList", JArr [])] in
  ProfilePage.politician col "Ada" = Normal (JObj r) /\
  obj_get r "Name" = JStr "Ada".
Proof.
  intros col r.
  assert (Hp : ProfilePage.politician col "Ada" = Normal (JObj r)) by reflexivity.
  split; [exact Hp |].
  exact (politician_name_is_parameter col "Ada" r Hp).
Defined.

(** ** Profile page: the sentiment colour *)

(** X8: [getSentimentColor] answers red up to 33 (also below zero), orange
    above 33 and up to 66, and green above 66 (also above 100); for [NaN],
    which every comparison rejects, it answers green. *)
Theorem getSentimentColor_ranges (q : Q) :
  (ProfilePage.getSentimentColor (Fin q) = "#ef5350" <-> (q <= 33)%Q) /\
  (ProfilePage.getSentimentColor (Fin q) = "#ffa726"
   <-> (33 < q)%Q /\ (q <= 66)%Q) /\
  (ProfilePage.getSentimentColor (Fin q) = "#66bb6a" <-> (66 < q)%Q) /\
  ProfilePage.getSentimentColor NaN = "#66bb6a" /\
  ProfilePage.getSentimentColor NegInf = "#ef5350" /\
  ProfilePage.getSentimentColor PosInf = "#66bb6a".
Proof.
  unfold ProfilePage.getSentimentColor. simpl.
  destruct (Qle_bool q 33) eqn:E1; destruct (Qle_bool q 66) eqn:E2.
  all: try (apply Qle_bool_iff in E1).
  all: try (apply Qle_bool_iff in E2).
  all: try (assert (N1 : ~ (q <= 33)%Q)
              by (rewrite <- Qle_bool_iff; congruence)).
  all: try (assert (N2 : ~ (q <= 66)%Q)
              by (rewrite <- Qle_bool_iff; congruence)).
  all: repeat split; try discriminate; try reflexivity; intros; try lra.
Qed.

(** X9: the colour follows the percentage: if [p <= q], then red for [q]
    means red for [p], and green for [p] means green for [q]. *)
Theorem getSentimentColor_monotone (p q : JsNumber) :
  jsLeb p q = true ->
  (ProfilePage.getSentimentColor q = "#ef5350" ->
   ProfilePage.getSentimentColor p = "#ef5350") /\
  (ProfilePage.getSentimentColor p = "#66bb6a" ->
   ProfilePage.getSentimentColor q = "#66bb6a").
Proof.
  intros Hle. unfold ProfilePage.getSentimentColor.
  destruct (jsLeb p (Fin 33)) eqn:P1, (jsLeb p (Fin 66)) eqn:P2,
           (jsLeb q (Fin 33)) eqn:Q1, (jsLeb q (Fin 66)) eqn:Q2;
    split; intros Hc; try reflexivity; try discriminate;
    try (rewrite (jsLeb_trans _ _ _ Hle Q1) in P1; discriminate);
    try (rewrite (jsLeb_trans _ _ _ Hle Q2) in P2; discriminate).
Qed.

(** Witness of X9. *)
Lemma getSentimentColor_monotone_witness :
  jsLeb (Fin 70) (Fin 90) = true /\
  (ProfilePage.getSentimentColor (Fin 90) = "#ef5350" ->
   ProfilePage.getSentimentColor (Fin 70) = "#ef5350") /\
  (ProfilePage.getSentimentColor (Fin 70) = "#66bb6a" ->
   ProfilePage.getSentimentColor (Fin 90) = "#66bb6a").
Proof.
  assert (Hle : jsLeb (Fin 70) (Fin 90) = true) by reflexivity.
  split; [exact Hle |].
  exact (getSentimentColor_monotone (Fin 70) (Fin 90) Hle).
Defined.

Example getSentimentColor_examples :
  ProfilePage.getSentimentColor (Fin 33) = "#ef5350"
  /\ ProfilePage.getSentimentColor (Fin (67 # 2)) = "#ffa726"
  /\ ProfilePage.getSentimentColor (Fin 66) = "#ffa726"
  /\ ProfilePage.getSentimentColor (Fin 100) = "#66bb6a"
  /\ ProfilePage.getSentimentColor (Fin (-5)) = "#ef5350".
Proof. repeat split. Qed.

(** ** Home page: more on the filter, the top match and the navigation *)

Lemma append_assoc (a b c : string) :
  String.append (String.append a b) c = String.append a (String.append b c).
Proof.
  induction a as [|x a IH]; [reflexivity |].
  rewrite !append_cons. now rewrite IH.
Qed.

Lemma Substring_trans (a b c : string) :
  Substring a b -> Substring b c -> Substring a c.
Proof.
  intros (p1 & q1 & ->) (p2 & q2 & ->).
  exists (String.append p2 p1), (String.append q1 q2).
  now rewrite !append_assoc.
Qed.

Lemma filter_refine {A} (f g : A -> bool) (l : list A) :
  (forall x, g x = true -> f x = true) ->
  List.filter g (List.filter f l) = List.filter g l.
Proof.
  intros Hgf. induction l as [|x l IH]; [reflexivity |]. simpl.
  destruct (f x) eqn:Ef; simpl.
  - now rewrite IH.
  - destruct (g x) eqn:Eg; [| exact IH].
    rewrite (Hgf x Eg) in Ef. discriminate.
Qed.

Section HomepageMore.
Context `{JsRuntime}.

(** Filtering again with the same query changes nothing. *)
Lemma filter_idempotent (options : list string) (v : string) :
  Homepage._filter (Homepage._filter options v) v = Homepage._filter options v.
Proof. unfold Homepage._filter. now apply filter_refine. Qed.

(** X10: a longer query narrows the list: when the lowercased [v] occurs
    in the lowercased [w], every option returned for [w] is returned for
    [v], and filtering the result for [v] with [w] gives the result for
    [w]. *)
Theorem filter_narrows (options : list string) (v w : string) :
  Substring (toLowerCase v) (toLowerCase w) ->
  Homepage._filter (Homepage._filter options v) w = Homepage._filter options w /\
  incl (Homepage._filter options w) (Homepage._filter options v).
Proof.
  intros Hvw.
  assert (Hstep : Homepage._filter (Homepage._filter options v) w
                  = Homepage._filter options w).
  { unfold Homepage._filter. apply filter_refine. intros o Ho.
    apply andb_true_iff in Ho as [Hne Hw]. rewrite Hne. simpl.
    apply includes_spec. apply includes_spec in Hw.
    exact (Substring_trans _ _ _ Hvw Hw). }
  split; [exact Hstep |].
  rewrite <- Hstep. unfold Homepage._filter at 1. apply incl_filter.
Qed.

(** X11: for the empty query with which the list starts, the filter
    returns every option but the empty ones (the lowercased empty string
    being empty). *)
Theorem filter_empty_query (options : list string) :
  toLowerCase "" = "" ->
  Homepage._filter options ""
  = List.filter (fun o => negb (String.eqb o "")) options.
Proof.
  intros Hlow. unfold Homepage._filter. rewrite Hlow.
  apply filter_ext. intros o. rewrite includes_empty. apply andb_true_r.
Qed.

(** X12: on a list without empty options the filter returns what its first
    revision returns. *)
Theorem filter_revisions_agree (options : list string) (v : string) :
  Forall (fun o => o <> "") options ->
  Homepage._filter options v = HomepageInitial._filter options v.
Proof.
  intros Hne. unfold Homepage._filter, HomepageInitial._filter.
  apply filter_ext_in. intros o Ho.
  rewrite Forall_forall in Hne. specialize (Hne o).
  destruct (String.eqb_spec o "") as [->|_]; [| reflexivity].
  exfalso. apply Hne; [| reflexivity]. now apply list_elem_of_In.
Qed.

Lemma step_top_match (e : Homepage.Event) (st : Homepage.State) :
  Homepage.in_step (Homepage.step e st).
Proof.
  unfold Homepage.in_step.
  destruct e as [value|names]; simpl;
    unfold Homepage.onNames, Homepage.setValue, Homepage.onValue; simpl.
  - now destruct (Homepage._filter (Homepage.options st) (orEmpty value)).
  - now destruct (Homepage._filter names (orEmpty (Homepage.control st))).
Qed.

Lemma run_top_match (events : list Homepage.Event) (st : Homepage.State) :
  Homepage.in_step st -> Homepage.in_step (Homepage.run events st).
Proof.
  revert st. induction events as [|e events IH]; intros st Hst; [exact Hst |].
  simpl. apply IH. apply step_top_match.
Qed.

End HomepageMore.

Section HomepageNavigation.
Context `{JsRuntime}.

Lemma in_step_member (st : Homepage.State) (m : string) :
  Homepage.in_step st -> Homepage.topMatch st = Some m ->
  In m (Homepage.options st) /\ m <> "".
Proof.
  unfold Homepage.in_step. intros Hst Hm. rewrite Hm in Hst.
  destruct (Homepage._filter (Homepage.options st)
              (orEmpty (Homepage.control st))) as [|m' rest] eqn:Hf;
    [discriminate |].
  injection Hst as ->.
  assert (Hin : In m' (Homepage._filter (Homepage.options st)
                         (orEmpty (Homepage.control st))))
    by (rewrite Hf; now left).
  unfold Homepage._filter in Hin. apply filter_In in Hin as [Hin Hk].
  split; [exact Hin |].
  apply andb_true_iff in Hk as [Hk _]. apply negb_true_iff in Hk.
  now apply String.eqb_neq.
Qed.

(** X13: from the initial state, after any sequence of edits of the control
    and deliveries of the name list, [topMatch] is the first option the
    filter returns for the control's value ([null] when there is none); so a
    top match is always one of the current options and never empty. *)
Theorem top_match_invariant (events : list Homepage.Event) :
  let st := Homepage.run events Homepage.initial in
  Homepage.in_step st /\
  forall m, Homepage.topMatch st = Some m ->
            In m (Homepage.options st) /\ m <> "".
Proof.
  intros st.
  assert (Hst : Homepage.in_step st) by (apply run_top_match; reflexivity).
  split; [exact Hst |].
  intros m. now apply in_step_member.
Qed.

(** X14: in any state [goToPage] asks for at most one navigation, always to
    [/profile/d] with [d] neither empty nor blank after trimming, and [d] is
    the top match or, failing a top match, the input value. *)
Theorem goToPage_never_blank
  (inputValue : option string) (st : Homepage.State) (commands : list string) :
  In (Homepage.Navigate commands) (Homepage.goToPage inputValue st) ->
  exists d,
    commands = ["/profile"; d] /\
    Homepage.goToPage inputValue st = [Homepage.Navigate commands] /\
    d <> "" /\ trim d <> "" /\
    (Homepage.topMatch st = Some d \/
     (orElse (Homepage.topMatch st) None = None /\ inputValue = Some d)).
Proof.
  unfold Homepage.goToPage.
  destruct (orElse (Homepage.topMatch st) inputValue) as [d|] eqn:Hd;
    [| intros []].
  destruct (String.eqb_spec d "") as [->|Hne]; simpl; [intros [] |].
  destruct (String.eqb_spec (trim d) "") as [Ht|Ht]; simpl; [intros [] |].
  intros [[= <-]|[]]. exists d. repeat split; try assumption.
  unfold orElse in *.
  destruct (Homepage.topMatch st) as [m|]; [| now right].
  destruct (String.eqb m ""); [now right |]. left. congruence.
Qed.

Lemma named_document_found (col : Collection) (m : string) :
  In (JStr m) (ProfilePage.names col) ->
  ProfilePage.politician col m <> Normal JNull.
Proof.
  intros Hin. unfold ProfilePage.names in Hin.
  apply in_map_iff in Hin as (d & Hd & Hcol).
  assert (Hq : In d (where_eq "Name" m col)).
  { unfold where_eq. apply filter_In. split; [exact Hcol |].
    rewrite Hd. simpl. apply String.eqb_refl. }
  unfold ProfilePage.politician.
  destruct (where_eq "Name" m col) as [|d' rest]; [destruct Hq |].
  change (ProfilePage.firstData (d' :: rest)) with (Some d').
  destruct (reshape_some d') as [l ->]. discriminate.
Qed.

(** X15: when the options are the names of the documents of a collection,
    a top match is the name of a profile that exists: [politician$] for it
    on that collection is not [null]. *)
Theorem top_match_has_profile
  (col : Collection) (st : Homepage.State) (m : string) :
  Homepage.in_step st ->
  ProfilePage.names col = map JStr (Homepage.options st) ->
  Homepage.topMatch st = Some m ->
  ProfilePage.politician col m <> Normal JNull.
Proof.
  intros Hst Hnames Hm.
  apply named_document_found. rewrite Hnames.
  apply in_map. now apply (in_step_member st m Hst Hm).
Qed.

End HomepageNavigation.

(** Witness of X10. *)
Lemma filter_narrows_witness :
  let options := ["Ada"; "Bob"; "Adam"; "Brad"] in
  Substring (toLowerCase "a") (toLowerCase "AD") /\
  Homepage._filter (Homepage._filter options "a") "AD"
  = Homepage._filter options "AD" /\
  incl (Homepage._filter options "AD") (Homepage._filter options "a").
Proof.
  intros options.
  assert (Hsub : Substring (toLowerCase "a") (toLowerCase "AD"))
    by (exists "", "d"; reflexivity).
  split; [exact Hsub |].
  exact (filter_narrows options "a" "AD" Hsub).
Defined.

(** Witness of X11. *)
Lemma filter_empty_query_witness :
  toLowerCase "" = "" /\
  Homepage._filter ["Ada"; ""; "Bob"] ""
  = List.filter (fun o => negb (String.eqb o "")) ["Ada"; ""; "Bob"].
Proof.
  assert (Hlow : toLowerCase "" = "") by reflexivity.
  split; [exact Hlow |].
  exact (filter_empty_query ["Ada"; ""; "Bob"] Hlow).
Defined.

(** Witness of X12. *)
Lemma filter_revisions_agree_witness :
  Forall (fun o => o <> "") ["Ada"; "Bob"] /\
  Homepage._filter ["Ada"; "Bob"] "b" = HomepageInitial._filter ["Ada"; "Bob"] "b".
Proof.
  assert (Hne : Forall (fun o : string => o <> "") ["Ada"; "Bob"])
    by (repeat constructor; discriminate).
  split; [exact Hne |].
  exact (filter_revisions_agree ["Ada"; "Bob"] "b" Hne).
Defined.

(** Witness of X14. *)
Lemma goToPage_never_blank_witness :
  let st := Homepage.run
              [Homepage.Loaded ["Bob"; "Ada"; "Adam"]; Homepage.Typed (Some "ad")]
              Homepage.initial in
  In (Homepage.Navigate ["/profile"; "Ada"]) (Homepage.goToPage (Some "ad") st) /\
  exists d,
    ["/profile"; "Ada"] = ["/profile"; d] /\
    Homepage.goToPage (Some "ad") st = [Homepage.Navigate ["/profile"; "Ada"]] /\
    d <> "" /\ trim d <> "" /\
    (Homepage.topMatch st = Some d \/
     (orElse (Homepage.topMatch st) None = None /\ Some "ad" = Some d)).
Proof.
  intros st.
  assert (Hin : In (Homepage.Navigate ["/profile"; "Ada"])
                  (Homepage.goToPage (Some "ad") st)) by (left; reflexivity).
  split; [exact Hin |].
  exact (goToPage_never_blank (Some "ad") st ["/profile"; "Ada"] Hin).
Defined.

(** Witness of X15. *)
Lemma top_match_has_profile_witness :
  let col := [[("Name", JStr "Ada")]; [("Name", JStr "Bob")]] in
  let st := Homepage.run
              [Homepage.Loaded ["Ada"; "Bob"]; Homepage.Typed (Some "b")]
              Homepage.initial in
  Homepage.in_step st /\
  ProfilePage.names col = map JStr (Homepage.options st) /\
  Homepage.topMatch st = Some "Bob" /\
  ProfilePage.politician col "Bob" <> Normal JNull.
Proof.
  intros col st.
  assert (Hst : Homepage.in_step st) by reflexivity.
  assert (Hnames : ProfilePage.names col = map JStr (Homepage.options st))
    by reflexivity.
  assert (Hm : Homepage.topMatch st = Some "Bob") by reflexivity.
  split; [exact Hst |]. split; [exact Hnames |]. split; [exact Hm |].
  exact (top_match_has_profile col st "Bob" Hst Hnames Hm).
Defined.

(** ** Navigation against the route table *)

Lemma resolve_root : Router.resolve ["/"] = Some (Router.HomepageComponent, []).
Proof. reflexivity. Qed.

Lemma resolve_profile (d : string) :
  Router.resolve ["/profile"; d]
  = Some (Router.ProfilePageComponent, [("name", d)]).
Proof. reflexivity. Qed.

Section NavigationFacts.
Context `{JsRuntime}.

(** X16: every navigation the components ask for is served by the route
    table: [goBack] shows the home page; [toPage(person)], for a non-empty
    [person], and [goToPage] show the profile page, whose [name] parameter
    is the very string the component passed. *)
Theorem navigations_resolve :
  (forall st, exists commands,
      (ProfilePage.goBack st).2 = [ProfilePage.Navigate commands] /\
      Router.resolve commands = Some (Router.HomepageComponent, [])) /\
  (forall person st commands,
      person <> "" ->
      In (ProfilePage.Navigate commands) (ProfilePage.toPage person st).2 ->
      Router.resolve commands
      = Some (Router.ProfilePageComponent, [("name", person)])) /\
  (forall inputValue st commands,
      In (Homepage.Navigate commands) (Homepage.goToPage inputValue st) ->
      exists d,
        d <> "" /\
        (Homepage.topMatch st = Some d \/ inputValue = Some d) /\
        Router.resolve commands
        = Some (Router.ProfilePageComponent, [("name", d)])).
Proof.
  split; [| split].
  - intros st. exists ["/"]. split; reflexivity.
  - intros person st commands _. unfold ProfilePage.toPage.
    destruct (ProfilePage.knows st person); simpl.
    + intros [[= <-]|[]]. apply resolve_profile.
    + intros [Hc|[]]. discriminate.
  - intros inputValue st commands. unfold Homepage.goToPage.
    destruct (orElse (Homepage.topMatch st) inputValue) as [d|] eqn:Hd;
      [| intros []].
    destruct (String.eqb_spec d "") as [->|Hne]; simpl; [intros [] |].
    destruct (String.eqb (trim d) ""); simpl; [intros [] |].
    intros [[= <-]|[]]. exists d.
    split; [exact Hne |]. split; [| apply resolve_profile].
    unfold orElse in Hd. destruct (Homepage.topMatch st) as [m|]; [| now right].
    destruct (String.eqb m ""); [now right | now left].
Qed.

(** X17: with the names of a collection stored, a [toPage(person)] that
    navigates, for a non-empty [person], lands on the profile page with
    [person] as its [name] parameter, and [politician$] for that parameter
    emits a document whose [Name] is [person]. *)
Theorem toPage_lands_on_profile
  (col : Collection) (st : ProfilePage.State) (person : string)
  (commands : list string) :
  person <> "" ->
  In (ProfilePage.Navigate commands)
     (ProfilePage.toPage person (ProfilePage.loadNames col st)).2 ->
  exists name r,
    Router.resolve commands
    = Some (Router.ProfilePageComponent, [("name", name)]) /\
    name = person /\
    ProfilePage.politician col name = Normal (JObj r) /\
    obj_get r "Name" = JStr person.
Proof.
  intros _. unfold ProfilePage.toPage. rewrite knows_loaded.
  destruct (where_eq "Name" person col) as [|d rest] eqn:Hq; simpl.
  - intros [Hc|[]]. discriminate.
  - intros [[= <-]|[]].
    destruct (reshape_some d) as [l Hl].
    exists person, (obj_set d "propsList" (JArr l)).
    split; [apply resolve_profile |]. split; [reflexivity |].
    unfold ProfilePage.politician. rewrite Hq.
    change (ProfilePage.firstData (d :: rest)) with (Some d).
    split; [exact Hl |].
    rewrite obj_get_set_ne by discriminate.
    now destruct (where_eq_first _ _ _ _ _ Hq) as (_ & _ & _ & Hd & _).
Qed.

End NavigationFacts.

(** Witness of X17. *)
Lemma toPage_lands_on_profile_witness :
  let col := [[("Name", JStr "Ada")]; [("Name", JStr "Bob")]] in
  let st := ProfilePage.initial in
  "Bob" <> "" /\
  In (ProfilePage.Navigate ["/profile"; "Bob"])
     (ProfilePage.toPage "Bob" (ProfilePage.loadNames col st)).2 /\
  exists name r,
    Router.resolve ["/profile"; "Bob"]
    = Some (Router.ProfilePageComponent, [("name", name)]) /\
    name = "Bob" /\
    ProfilePage.politician col name = Normal (JObj r) /\
    obj_get r "Name" = JStr "Bob".
Proof.
  intros col st.
  assert (Hne : "Bob" <> "") by discriminate.
  assert (Hin : In (ProfilePage.Navigate ["/profile"; "Bob"])
                  (ProfilePage.toPage "Bob" (ProfilePage.loadNames col st)).2)
    by (left; reflexivity).
  split; [exact Hne |]. split; [exact Hin |].
  exact (toPage_lands_on_profile col st "Bob" ["/profile"; "Bob"] Hne Hin).
Defined.

Example resolve_unknown_path :
  Router.resolve ["/about"] = None
  /\ Router.resolve ["/profile"] = None
  /\ Router.resolve ["/profile"; "Ada"; "edit"] = None.
Proof. repeat split. Qed.

(** ** The environment file generator *)

Section SetEnvFacts.
Import SetEnv.

Lemma interpolate_unset (env : gmap string string) (k key : string) :
  env !! k = None ->
  interpolate (<[k := "undefined"]> env !! key) = interpolate (env !! key).
Proof.
  intros Hk. destruct (decide (k = key)) as [->|Hne].
  - now rewrite lookup_insert_eq, Hk.
  - now rewrite lookup_insert_ne.
Qed.

(** X18: a variable that is not set is written as the word [undefined]:
    the generated file is the one obtained with the variable set to that
    word, and no error is raised. *)
Theorem unset_variable_written_as_undefined (env : gmap string string) (k : string) :
  env !! k = None ->
  envConfigFile (<[k := "undefined"]> env) = envConfigFile env.
Proof.
  intros Hk. unfold envConfigFile.
  now rewrite !(interpolate_unset env k _ Hk).
Qed.

End SetEnvFacts.

(** Witness of X18. *)
Lemma unset_variable_written_as_undefined_witness :
  let env : gmap string string :=
    <["NG_APP_FIREBASE_PROJECT_ID" := "gov-props"]> ∅ in
  env !! "NG_APP_FIREBASE_APP_ID" = None /\
  SetEnv.envConfigFile (<["NG_APP_FIREBASE_APP_ID" := "undefined"]> env)
  = SetEnv.envConfigFile env.
Proof.
  intros env.
  assert (Hk : env !! "NG_APP_FIREBASE_APP_ID" = None) by reflexivity.
  split; [exact Hk |].
  exact (unset_variable_written_as_undefined env "NG_APP_FIREBASE_APP_ID" Hk).
Defined.

Example envConfigFile_empty_environment :
  SetEnv.envConfigFile ∅ = "export const environment = {
  production: false,
  firebase: {
    apiKey: 'undefined',
    authDomain: 'undefined',
    projectId: 'undefined',
    storageBucket: 'undefined',
    messagingSenderId: 'undefined',
    appId: 'undefined',
    measurementId: 'undefined'
  }
};".
Proof. reflexivity. Qed.

(** X19: the generated file is a function of the seven variables the
    template names: two environments that agree on them give the same file,
    whatever else they hold. *)
Theorem envConfigFile_reads_seven_variables (env1 env2 : gmap string string) :
  (forall k, In k SetEnv.variables -> env1 !! k = env2 !! k) ->
  SetEnv.envConfigFile env1 = SetEnv.envConfigFile env2.
Proof.
  intros Hagree. unfold SetEnv.envConfigFile.
  rewrite !Hagree by (unfold SetEnv.variables; simpl; tauto).
  reflexivity.
Qed.

(** Witness of X19: the second environment has one more variable. *)
Lemma envConfigFile_reads_seven_variables_witness :
  let env1 : gmap string string :=
    <["NG_APP_FIREBASE_PROJECT_ID" := "gov-props"]> ∅ in
  let env2 : gmap string string := <["HOME" := "/root"]> env1 in
  (forall k, In k SetEnv.variables -> env1 !! k = env2 !! k) /\
  SetEnv.envConfigFile env1 = SetEnv.envConfigFile env2.
Proof.
  intros env1 env2.
  assert (Hagree : forall k, In k SetEnv.variables -> env1 !! k = env2 !! k).
  { intros k Hk. unfold env2. rewrite lookup_insert_ne; [reflexivity |].
    intros <-. simpl in Hk.
    repeat (destruct Hk as [Hk|Hk]; [discriminate |]). exact Hk. }
  split; [exact Hagree |].
  exact (envConfigFile_reads_seven_variables env1 env2 Hagree).
Defined.
